(** * Checkpoint loading for ESMFold: [esm/esmfold/v1/pretrained.py]

    A shallow embedding of [_load_model], [esmfold_v0] and [esmfold_v1].
    The Python code is sequential and effectful: it reads a file through
    [torch.load], indexes the resulting dictionary, constructs an [ESMFold]
    module, compares two key sets, and either raises or calls
    [load_state_dict].  We model it in a small error-and-log monad whose log
    records the calls made to the external collaborators, so that the order
    of effects can be stated. *)

From stdpp Require Import gmap strings list fin_maps.
From Stdlib Require Import String Ascii.

Local Open Scope string_scope.

(** ** Python strings *)

Module PyStr.

(** [s.startswith(p)] *)
Definition startswith (s p : string) : bool := String.prefix p s.

(** [needle in hay] for two [str] values: some suffix of [hay] starts with
    [needle]. *)
Fixpoint contains (needle hay : string) : bool :=
  String.prefix needle hay ||
  match hay with
  | EmptyString => false
  | String _ rest => contains needle rest
  end.

(** [sep.join(l)] *)
Definition join (sep : string) (l : list string) : string :=
  String.concat sep l.

End PyStr.

(** ** [pathlib.Path], POSIX flavour

    A path is an optional root and a list of components. *)

Record Path := mkPath { absolute : bool; parts : list string }.

(** [path.as_posix()]; the empty relative path prints as ["."]. *)
Definition as_posix (p : Path) : string :=
  match absolute p, parts p with
  | false, [] => "."
  | false, ps => PyStr.join "/" ps
  | true, ps => "/" +:+ PyStr.join "/" ps
  end.

(** [str(path)]: on the POSIX flavour the same text as [as_posix]. *)
Definition str (p : Path) : string := as_posix p.

(** [path.name], the final component (empty for a bare root or [.]). *)
Definition name (p : Path) : string := List.last (parts p) "".

(** What a caller may pass where the signatures say [path]: Python does
    not enforce the annotation, so both a plain [str] and a [Path] arrive. *)
Inductive PyArg :=
| ArgStr (s : string)
| ArgPath (p : Path).

(** [str(x)] on such an argument. *)
Definition py_str (x : PyArg) : string :=
  match x with
  | ArgStr s => s
  | ArgPath p => str p
  end.

(** ** Exceptions *)

Inductive PyError :=
| KeyError (key : string)
| TypeError (msg : string)
| IndexError (msg : string)
| AttributeError (msg : string)
| RuntimeError (msg : string)
| FileNotFoundError (file : string)
| UnpicklingError (msg : string).

(** ** Python values met by the loader

    The deserialised checkpoint is an ordinary dictionary.  Values are
    dictionaries with string keys, tensors, or other objects (a
    configuration node, a number, ...) that the loader hands on unopened. *)

Section Loader.

Variable Tensor : Type.
Variable Obj : Type.

#[local] Set Warnings "-register-all".
Inductive PyVal :=
| PyObj (o : Obj)
| PyTensor (t : Tensor)
| PyDict (d : gmap string PyVal).
#[local] Set Warnings "register-all".

(** *** Calls to the collaborators, in the order they happen *)

Inductive Event :=
| EvTorchLoad (file map_location : string)
| EvESMFold (esmfold_config : PyVal)
| EvLoadStateDict (strict : bool).

(** A computation either raises or returns, and leaves a log of calls. *)
Definition Py (A : Type) : Type := (PyError + A) * list Event.

Definition outcome {A} (c : Py A) : PyError + A := fst c.
Definition trace {A} (c : Py A) : list Event := snd c.

Definition raise {A} (e : PyError) : Py A := (inl e, []).
Definition call (ev : Event) : Py unit := (inr tt, [ev]).
Definition lift {A} (r : PyError + A) : Py A := (r, []).

#[global] Instance Py_ret : MRet Py := λ A a, (inr a, []).
#[global] Instance Py_bind : MBind Py := λ A B f c,
  match c with
  | (inl e, log) => (inl e, log)
  | (inr a, log) => let '(r, log') := f a in (r, (log ++ log')%list)
  end.

(** *** Dictionary operations *)

(** [v[k]] *)
Definition getitem (v : PyVal) (k : string) : Py PyVal :=
  match v with
  | PyDict d =>
      match d !! k with
      | Some x => mret x
      | None => raise (KeyError k)
      end
  | PyTensor _ => raise (IndexError "invalid index of type str")
  | PyObj _ => raise (TypeError "object is not subscriptable")
  end.

(** [set(v.keys())] *)
Definition keys (v : PyVal) : Py (gset string) :=
  match v with
  | PyDict d => mret (dom d)
  | _ => raise (AttributeError "object has no attribute 'keys'")
  end.

(** *** The environment

    [unpickle file device] is what [torch.load] finds at [file]: the file
    system and the serialisation format are outside the program.

    [initial_params cfg] stands for the [ESMFold] class of
    [esm/esmfold/v1/esmfold.py]: the parameter names the architecture
    described by [cfg] declares, with their freshly initialised tensors.

    [copy_ own given] stands for torch's [own.copy_(given)] as
    [load_state_dict] uses it: the content of [given] converted to the
    type and device of the parameter [own], or nothing when the two sizes
    differ or the copy fails.

    [iter s] is the order in which Python enumerates the set [s] in the
    run at hand; the language fixes only that each element comes exactly
    once.  Another run may enumerate the same set in another order, so a
    statement about two runs takes one order for each. *)

Variable unpickle : string → string → PyError + PyVal.
Variable initial_params : PyVal → gmap string Tensor.
Variable copy_ : Tensor → Tensor → option Tensor.
Variable iter : gset string → list string.
Hypothesis iter_perm : ∀ s, iter s ≡ₚ elements s.

(** [torch.load(f, map_location=device)] *)
Definition torch_load (f device : string) : Py PyVal :=
  call (EvTorchLoad f device);; lift (unpickle f device).

(** *** The model object *)

Record Model := mkModel {
  esmfold_config : PyVal;
  params : gmap string Tensor
}.

(** [ESMFold(esmfold_config=cfg)] *)
Definition ESMFold (cfg : PyVal) : Py Model :=
  call (EvESMFold cfg);; mret (mkModel cfg (initial_params cfg)).

(** [model.state_dict()] *)
Definition state_dict (m : Model) : gmap string Tensor := params m.

(** *** [torch.nn.Module.load_state_dict]

    For every own parameter for which the given dictionary has an entry,
    the entry must be a tensor of the parameter's size and is copied into
    the parameter with [copy_]; an entry that is no tensor, has another
    size or cannot be copied is an error whatever [strict] says, and
    leaves the parameter as it was.  Keys on one side only are reported as
    missing or unexpected and are an error only under [strict].  The
    message goes on with one line for each offence, which is left out. *)

Definition is_tensor (v : PyVal) : bool :=
  match v with PyTensor _ => true | _ => false end.

(** Whether [given] can be copied into the parameter [own]. *)
Definition fits (own : Tensor) (given : PyVal) : bool :=
  match given with
  | PyTensor t => bool_decide (is_Some (copy_ own t))
  | _ => false
  end.

Definition copy_param (own : option Tensor) (given : option PyVal)
  : option Tensor :=
  match own, given with
  | Some t0, Some (PyTensor t) => Some (default t0 (copy_ t0 t))
  | _, _ => own
  end.

(** The own parameter names whose entry in [sd] cannot be copied. *)
Definition not_copyable (own : gmap string Tensor) (sd : gmap string PyVal)
  : gset string :=
  dom (filter (λ kv, fits kv.2.1 kv.2.2 = false) (map_zip own sd)).

Definition load_state_dict (m : Model) (state : PyVal) (strict : bool)
  : Py Model :=
  call (EvLoadStateDict strict);;
  match state with
  | PyDict sd =>
      let missing_keys := dom (params m) ∖ dom sd in
      let unexpected_keys := dom sd ∖ dom (params m) in
      if bool_decide (not_copyable (params m) sd = ∅)
         && (negb strict
             || bool_decide (missing_keys = ∅ ∧ unexpected_keys = ∅))
      then mret (mkModel (esmfold_config m)
                         (merge copy_param (params m) sd))
      else raise (RuntimeError "Error(s) in loading state_dict for ESMFold")
  | _ => raise (TypeError "Expected state_dict to be dict-like")
  end.

(** *** [_load_model] *)

Definition missing_message (missing_essential_keys : list string) : string :=
  "Keys '" +:+ PyStr.join ", " missing_essential_keys +:+ "' are missing.".

(** The loop over [expected_keys - found_keys] that collects the keys
    not starting with ["esm."]. *)
Definition essential (missing : list string) : list string :=
  List.filter (λ missing_key, negb (PyStr.startswith missing_key "esm."))
              missing.

Definition _load_model (model_path : PyArg) : Py Model :=
  model_data ← torch_load (py_str model_path) "cuda:0";
  cfg_node ← getitem model_data "cfg";
  cfg ← getitem cfg_node "model";
  model_state ← getitem model_data "model";
  model ← ESMFold cfg;
  let expected_keys := dom (state_dict model) in
  found_keys ← keys model_state;
  let missing_essential_keys :=
    essential (iter (expected_keys ∖ found_keys)) in
  match missing_essential_keys with
  | _ :: _ => raise (RuntimeError (missing_message missing_essential_keys))
  | [] =>
      (* [load_state_dict] updates [model] in place *)
      model ← load_state_dict model model_state false;
      mret model
  end.

(** *** The two named variants *)

(** [path.as_posix()], a method that [str] does not have. *)
Definition py_as_posix (path : PyArg) : Py string :=
  match path with
  | ArgPath p => mret (as_posix p)
  | ArgStr _ =>
      raise (AttributeError "'str' object has no attribute 'as_posix'")
  end.

Definition esmfold_v0 (path : PyArg) : Py (option Model) :=
  s ← py_as_posix path;
  if PyStr.contains "esmfold_3B_v0" s
  then model ← _load_model path; mret (Some model)
  else mret None.

Definition esmfold_v1 (path : PyArg) : Py (option Model) :=
  s ← py_as_posix path;
  if PyStr.contains "esmfold_3B_v1" s
  then model ← _load_model path; mret (Some model)
  else mret None.

End Loader.

Arguments PyObj {Tensor Obj} o.
Arguments PyTensor {Tensor Obj} t.
Arguments PyDict {Tensor Obj} d.
Arguments EvTorchLoad {Tensor Obj} file map_location.
Arguments EvESMFold {Tensor Obj} esmfold_config.
Arguments EvLoadStateDict {Tensor Obj} strict.
Arguments mkModel {Tensor Obj} esmfold_config params.
Arguments esmfold_config {Tensor Obj} m.
Arguments params {Tensor Obj} m.
Arguments outcome {Tensor Obj A} c.
Arguments trace {Tensor Obj A} c.
Arguments raise {Tensor Obj A} e.
Arguments call {Tensor Obj} ev.
Arguments lift {Tensor Obj A} r.
Arguments getitem {Tensor Obj} v k.
Arguments keys {Tensor Obj} v.
Arguments torch_load {Tensor Obj} unpickle f device.
Arguments ESMFold {Tensor Obj} initial_params cfg.
Arguments state_dict {Tensor Obj} m.
Arguments is_tensor {Tensor Obj} v.
Arguments fits {Tensor Obj} copy_ own given.
Arguments copy_param {Tensor Obj} copy_ own given.
Arguments not_copyable {Tensor Obj} copy_ own sd.
Arguments load_state_dict {Tensor Obj} copy_ m state strict.
Arguments _load_model {Tensor Obj} unpickle initial_params copy_ iter
  model_path.
Arguments py_as_posix {Tensor Obj} path.
Arguments esmfold_v0 {Tensor Obj} unpickle initial_params copy_ iter path.
Arguments esmfold_v1 {Tensor Obj} unpickle initial_params copy_ iter path.

(** ** Checkpoints as the data model describes them

    A dictionary is a checkpoint for configuration [cfg] and weights
    [weights] when ["cfg"]["model"] holds [cfg] and ["model"] holds the
    flat mapping of parameter names to tensors.  Other top-level entries
    are allowed. *)
Definition is_checkpoint {Tensor Obj} (v cfg : PyVal Tensor Obj)
    (weights : gmap string Tensor) : Prop :=
  ∃ d c, v = PyDict d
         ∧ d !! "cfg" = Some (PyDict c)
         ∧ c !! "model" = Some cfg
         ∧ d !! "model" = Some (PyDict (PyTensor <$> weights)).

(** A dictionary from which one of the three lookups of the loader fails
    on key [k]: no ["cfg"]; or a ["cfg"] dictionary without ["model"]; or
    a complete ["cfg"] but no top-level ["model"]. *)
Definition lacks_field {Tensor Obj} (d : gmap string (PyVal Tensor Obj))
    (k : string) : Prop :=
  (d !! "cfg" = None ∧ k = "cfg")
  ∨ (∃ c, d !! "cfg" = Some (PyDict c) ∧ k = "model"
          ∧ (c !! "model" = None ∨ d !! "model" = None)).

(** Every tensor that [weights] stores under a parameter name of [own] can
    be copied into that parameter. *)
Definition all_fit {Tensor} (copy_ : Tensor → Tensor → option Tensor)
    (own weights : gmap string Tensor) : Prop :=
  ∀ k t0 t, own !! k = Some t0 → weights !! k = Some t →
            is_Some (copy_ t0 t).

(** ** A small concrete world

    Tensors are numbers, the architecture has three parameters whatever the
    configuration says, and the file system holds a handful of checkpoints. *)

Module World.

Definition Tensor : Type := nat.
Definition Obj : Type := unit.

Definition initial_params (cfg : PyVal Tensor Obj) : gmap string Tensor :=
  {[ "trunk.weight" := 0; "trunk.esm.weight" := 0; "esm.embed" := 0 ]}.

(** All tensors of this world have one size and one type. *)
Definition copy_ (own given : Tensor) : option Tensor := Some given.

Definition iter (s : gset string) : list string := elements s.

Definition cfg : PyVal Tensor Obj := PyObj tt.

Definition checkpoint (weights : gmap string Tensor) : PyVal Tensor Obj :=
  PyDict {[ "cfg" := PyDict {[ "model" := cfg ]};
            "model" := PyDict (PyTensor <$> weights) ]}.

(** All trunk weights, no language-model weights, one stray key. *)
Definition full : gmap string Tensor :=
  {[ "trunk.weight" := 7; "trunk.esm.weight" := 8; "ema.decay" := 9 ]}.

(** The trunk weight whose name has ["esm."] in the middle is absent. *)
Definition partial : gmap string Tensor := {[ "trunk.weight" := 7 ]}.

Definition v0_in_dir : Path :=
  mkPath true ["ckpt"; "esmfold_3B_v0"; "weights.pt"].
Definition v1_in_dir : Path :=
  mkPath true ["ckpt"; "esmfold_3B_v1"; "weights.pt"].
Definition elsewhere : Path := mkPath true ["ckpt"; "other"; "weights.pt"].
Definition v0_file : Path := mkPath true ["ckpt"; "esmfold_3B_v0.pt"].
Definition v0_partial : Path := mkPath true ["ckpt"; "esmfold_3B_v0.part"].
Definition v0_no_cfg : Path := mkPath true ["ckpt"; "esmfold_3B_v0.nocfg"].

Definition unpickle (file device : string) : PyError + PyVal Tensor Obj :=
  if bool_decide (file = "/ckpt/esmfold_3B_v0/weights.pt"
                  ∨ file = "/ckpt/esmfold_3B_v1/weights.pt"
                  ∨ file = "/ckpt/other/weights.pt"
                  ∨ file = "/ckpt/esmfold_3B_v0.pt")
  then inr (checkpoint full)
  else if bool_decide (file = "/ckpt/esmfold_3B_v0.part")
  then inr (checkpoint partial)
  else if bool_decide (file = "/ckpt/esmfold_3B_v0.nocfg")
  then inr (PyDict {[ "model" := PyDict (PyTensor <$> full) ]})
  else inl (FileNotFoundError file).

Definition load := _load_model unpickle initial_params copy_ iter.
Definition v0 := esmfold_v0 unpickle initial_params copy_ iter.
Definition v1 := esmfold_v1 unpickle initial_params copy_ iter.

End World.

(** ** A second file system

    The same architecture over other files: a checkpoint with entries the
    model does not declare, one whose ["model"] entry is a single tensor,
    and one without any weight; and a second enumeration order. *)

Module Shelf.

Definition iter_rev (s : gset string) : list string := reverse (elements s).

(** The trunk weights of [World.full] among other entries. *)
Definition annotated : gmap string World.Tensor :=
  {[ "trunk.weight" := 7; "trunk.esm.weight" := 8;
     "optimizer.step" := 3; "esm.unused" := 4 ]}.

Definition bare : gmap string World.Tensor := ∅.

Definition tensor_as_model : PyVal World.Tensor World.Obj :=
  PyDict {[ "cfg" := PyDict {[ "model" := World.cfg ]};
            "model" := PyTensor 5 ]}.

(** The dictionary [World.unpickle] holds for the file without ["cfg"]. *)
Definition weights_only : gmap string (PyVal World.Tensor World.Obj) :=
  {[ "model" := PyDict (PyTensor <$> World.full) ]}.

Definition in_a : Path := mkPath true ["a"; "esmfold_3B_v0.pt"].
Definition in_b : Path := mkPath true ["b"; "esmfold_3B_v0.pt"].
Definition in_c : Path := mkPath true ["c"; "esmfold_3B_v0.pt"].
Definition in_d : Path := mkPath true ["d"; "esmfold_3B_v0.pt"].
Definition absent : Path := mkPath true ["e"; "esmfold_3B_v0.pt"].
Definition both : Path := mkPath true ["esmfold_3B_v0"; "esmfold_3B_v1.pt"].

Definition unpickle (file device : string)
  : PyError + PyVal World.Tensor World.Obj :=
  if bool_decide (file = "/a/esmfold_3B_v0.pt")
  then inr (World.checkpoint World.full)
  else if bool_decide (file = "/b/esmfold_3B_v0.pt")
  then inr (World.checkpoint annotated)
  else if bool_decide (file = "/c/esmfold_3B_v0.pt")
  then inr tensor_as_model
  else if bool_decide (file = "/d/esmfold_3B_v0.pt")
  then inr (World.checkpoint bare)
  else inl (FileNotFoundError file).

Definition load :=
  _load_model unpickle World.initial_params World.copy_ World.iter.
Definition load_rev :=
  _load_model unpickle World.initial_params World.copy_ iter_rev.
Definition v0 :=
  esmfold_v0 unpickle World.initial_params World.copy_ World.iter.
Definition v1 :=
  esmfold_v1 unpickle World.initial_params World.copy_ World.iter.

End Shelf.

(** ** A world with tensor sizes

    A tensor is a size and a content; copying needs equal sizes.  The
    architecture has the three parameters of [World], of sizes 4, 2 and 8. *)

Module Sized.

Definition Tensor : Type := (nat * nat)%type.
Definition Obj : Type := unit.

Definition copy_ (own given : Tensor) : option Tensor :=
  if bool_decide (own.1 = given.1) then Some given else None.

Definition initial_params (cfg : PyVal Tensor Obj) : gmap string Tensor :=
  {[ "trunk.weight" := (4, 0); "trunk.esm.weight" := (2, 0);
     "esm.embed" := (8, 0) ]}.

Definition iter (s : gset string) : list string := elements s.

Definition cfg : PyVal Tensor Obj := PyObj tt.

Definition checkpoint (weights : gmap string Tensor) : PyVal Tensor Obj :=
  PyDict {[ "cfg" := PyDict {[ "model" := cfg ]};
            "model" := PyDict (PyTensor <$> weights) ]}.

(** Every name of the model, with tensors of the right sizes. *)
Definition fitting : gmap string Tensor :=
  {[ "trunk.weight" := (4, 7); "trunk.esm.weight" := (2, 8);
     "esm.embed" := (8, 9) ]}.

(** Every name of the model, but ["trunk.weight"] has size 3. *)
Definition complete_misfit : gmap string Tensor :=
  {[ "trunk.weight" := (3, 7); "trunk.esm.weight" := (2, 8);
     "esm.embed" := (8, 9) ]}.

(** Only the language-model name is absent; ["trunk.esm.weight"] has
    size 5. *)
Definition trunk_misfit : gmap string Tensor :=
  {[ "trunk.weight" := (4, 7); "trunk.esm.weight" := (5, 8) ]}.

(** Both trunk weights fit, a stray key is present, and the optional
    ["esm.embed"] is present with size 1. *)
Definition optional_misfit : gmap string Tensor :=
  {[ "trunk.weight" := (4, 7); "trunk.esm.weight" := (2, 8);
     "esm.embed" := (1, 9); "ema.decay" := (1, 1) ]}.

Definition fitting_file : Path := mkPath true ["s"; "fitting.pt"].
Definition trunk_misfit_file : Path := mkPath true ["s"; "trunk.pt"].
Definition optional_misfit_file : Path := mkPath true ["s"; "optional.pt"].

Definition unpickle (file device : string) : PyError + PyVal Tensor Obj :=
  if bool_decide (device ≠ "cuda:0")
  then inl (RuntimeError "no such device")
  else if bool_decide (file = "/s/fitting.pt")
  then inr (checkpoint fitting)
  else if bool_decide (file = "/s/complete.pt")
  then inr (checkpoint complete_misfit)
  else if bool_decide (file = "/s/trunk.pt")
  then inr (checkpoint trunk_misfit)
  else if bool_decide (file = "/s/optional.pt")
  then inr (checkpoint optional_misfit)
  else inl (FileNotFoundError file).

Definition load := _load_model unpickle initial_params copy_ iter.

End Sized.

(** * Properties *)

(** ** Strings *)

Module PyStrFacts.
Import PyStr.

Lemma append_nil (b : string) : "" +:+ b = b.
Proof. reflexivity. Qed.

Lemma append_cons x (a b : string) : String x a +:+ b = String x (a +:+ b).
Proof. reflexivity. Qed.

Lemma append_assoc (a b c : string) : (a +:+ b) +:+ c = a +:+ (b +:+ c).
Proof.
  induction a as [|x a IH]; [done |]. by rewrite !append_cons, IH.
Qed.

Lemma append_empty_r (a : string) : a +:+ "" = a.
Proof. induction a as [|x a IH]; [done |]. by rewrite append_cons, IH. Qed.

Lemma prefix_app (p rest : string) : String.prefix p (p +:+ rest) = true.
Proof.
  induction p as [|x p IH]; [by destruct rest |].
  rewrite append_cons. simpl.
  destruct (ascii_dec x x); [done | congruence].
Qed.

Lemma prefix_split (p s : string) :
  String.prefix p s = true → ∃ rest, s = p +:+ rest.
Proof.
  revert s. induction p as [|x p IH]; intros s H.
  - by exists s.
  - destruct s as [|y s]; simpl in H; [done |].
    destruct (ascii_dec x y) as [->|]; [| done].
    destruct (IH _ H) as [rest ->]. by exists rest.
Qed.

(** [startswith] holds exactly for the strings that begin with the
    prefix. *)
Lemma startswith_spec (s p : string) :
  startswith s p = true ↔ ∃ rest, s = p +:+ rest.
Proof.
  unfold startswith. split.
  - apply prefix_split.
  - intros [rest ->]. apply prefix_app.
Qed.

Lemma contains_cons needle x hay :
  contains needle hay = true → contains needle (String x hay) = true.
Proof. intros H. cbn [contains]. rewrite H. apply orb_true_r. Qed.

Lemma contains_here needle hay :
  String.prefix needle hay = true → contains needle hay = true.
Proof. intros H. destruct hay; cbn [contains]; by rewrite H. Qed.

(** [needle in hay] holds exactly when [hay] splits around [needle]. *)
Lemma contains_spec (needle hay : string) :
  contains needle hay = true ↔ ∃ pre post, hay = pre +:+ needle +:+ post.
Proof.
  split.
  - induction hay as [|x hay IH]; cbn [contains]; intros H.
    + apply orb_true_iff in H as [H|H]; [| done].
      destruct (prefix_split _ _ H) as [post Hpost]. by exists "", post.
    + apply orb_true_iff in H as [H|H].
      * destruct (prefix_split _ _ H) as [post Hpost]. by exists "", post.
      * destruct (IH H) as (pre & post & ->). by exists (String x pre), post.
  - intros (pre & post & ->). induction pre as [|x pre IH].
    + rewrite append_nil. apply contains_here, prefix_app.
    + rewrite append_cons. by apply contains_cons.
Qed.

Lemma contains_app_r needle pre hay :
  contains needle hay = true → contains needle (pre +:+ hay) = true.
Proof.
  rewrite !contains_spec. intros (a & b & ->).
  exists (pre +:+ a), b. by rewrite append_assoc.
Qed.

Lemma contains_app_l needle hay post :
  contains needle hay = true → contains needle (hay +:+ post) = true.
Proof.
  rewrite !contains_spec. intros (a & b & ->).
  exists a, (b +:+ post). by rewrite !append_assoc.
Qed.

Lemma contains_refl s : contains s s = true.
Proof.
  apply contains_spec. exists "", "". simpl. by rewrite append_empty_r.
Qed.

(** Every joined string occurs in the result of [join]. *)
Lemma contains_join sep (l : list string) k :
  k ∈ l → contains k (join sep l) = true.
Proof.
  unfold join. induction l as [|x l IH]; [by intros ?%elem_of_nil |].
  intros [->|Hin]%elem_of_cons.
  - destruct l; simpl; [apply contains_refl |].
    apply contains_app_l, contains_refl.
  - destruct l as [|y l]; [by apply elem_of_nil in Hin |].
    change (contains k (x +:+ sep +:+ String.concat sep (y :: l)) = true).
    by apply contains_app_r, contains_app_r, IH.
Qed.

Lemma contains_join_last sep (l : list string) k :
  contains k (List.last l "") = true → contains k (join sep l) = true.
Proof.
  unfold join. induction l as [|x l IH]; [done |].
  destruct l as [|y l]; [done |]. intros H.
  change (contains k (x +:+ sep +:+ String.concat sep (y :: l)) = true).
  by apply contains_app_r, contains_app_r, IH.
Qed.

End PyStrFacts.

(** A name in the final component is a name in the whole path. *)
Lemma contains_name_as_posix (p : Path) (k : string) :
  PyStr.contains k (name p) = true → PyStr.contains k (as_posix p) = true.
Proof.
  destruct p as [[] ps]; unfold name, as_posix; cbn [absolute parts]; intros H.
  - by apply PyStrFacts.contains_app_r, PyStrFacts.contains_join_last.
  - destruct ps as [|x ps]; [| by apply PyStrFacts.contains_join_last].
    apply PyStrFacts.contains_spec in H as (a & b & Hab).
    destruct a; [| done]. by destruct k.
Qed.

(** ** The loader *)

(** Decide membership of an event in an explicit log. *)
Ltac in_log H :=
  repeat (apply elem_of_cons in H as [H | H];
          [try discriminate H; try (injection H as ?; subst) |]);
  try (apply elem_of_nil in H; destruct H).

Section LoaderProperties.

Context {Tensor Obj : Type}.
Variable unpickle : string → string → PyError + PyVal Tensor Obj.
Variable initial_params : PyVal Tensor Obj → gmap string Tensor.
Variable copy_ : Tensor → Tensor → option Tensor.
Variable iter : gset string → list string.
Hypothesis iter_perm : ∀ s, iter s ≡ₚ elements s.

#[local] Abbreviation load_model :=
  (_load_model unpickle initial_params copy_ iter).
#[local] Abbreviation loading p :=
  (EvTorchLoad (Tensor:=Tensor) (Obj:=Obj) (py_str p) "cuda:0").

Implicit Types (path : PyArg) (cfg v : PyVal Tensor Obj).
Implicit Types (weights own : gmap string Tensor) (k : string).

(** *** The collected keys *)

Lemma elem_of_iter (s : gset string) k : k ∈ iter s ↔ k ∈ s.
Proof. by rewrite (iter_perm s), elem_of_elements. Qed.

Lemma NoDup_iter (s : gset string) : NoDup (iter s).
Proof. rewrite (iter_perm s). apply NoDup_elements. Qed.

Lemma elem_of_essential (l : list string) k :
  k ∈ essential l ↔ k ∈ l ∧ PyStr.startswith k "esm." = false.
Proof.
  unfold essential. rewrite !list_elem_of_In, filter_In.
  by rewrite negb_true_iff.
Qed.

Lemma NoDup_essential (l : list string) : NoDup l → NoDup (essential l).
Proof.
  unfold essential. rewrite !NoDup_ListNoDup. apply List.NoDup_filter.
Qed.

Lemma essential_nil (s : gset string) :
  essential (iter s) = []
  ↔ ∀ k, k ∈ s → PyStr.startswith k "esm." = true.
Proof.
  split.
  - intros Hnil k Hk. destruct (PyStr.startswith k "esm.") eqn:E; [done |].
    assert (k ∈ essential (iter s)) as Hin
      by (apply elem_of_essential; by rewrite elem_of_iter).
    rewrite Hnil in Hin. by apply elem_of_nil in Hin.
  - intros Hall. destruct (essential (iter s)) as [|k l] eqn:E; [done |].
    assert (k ∈ essential (iter s)) as Hin by (rewrite E; left).
    apply elem_of_essential in Hin as [Hin Hk].
    rewrite elem_of_iter in Hin. rewrite (Hall k Hin) in Hk. done.
Qed.

(** *** Non-strict loading *)

Lemma not_copyable_empty own (sd : gmap string (PyVal Tensor Obj)) :
  not_copyable copy_ own sd = ∅
  ↔ ∀ k t0 x, own !! k = Some t0 → sd !! k = Some x →
              fits copy_ t0 x = true.
Proof.
  unfold not_copyable. split.
  - intros Hnone k t0 x Hown Hsd.
    destruct (fits copy_ t0 x) eqn:Hfit; [done |].
    assert (k ∈ dom (filter (λ kv, fits copy_ kv.2.1 kv.2.2 = false)
                            (map_zip own sd))) as Hin.
    { apply elem_of_dom. exists (t0, x). apply map_lookup_filter_Some.
      split; [| done]. by apply map_lookup_zip_Some. }
    rewrite Hnone in Hin. by apply not_elem_of_empty in Hin.
  - intros Hall. apply set_eq. intros k. split; [| by intros ?%not_elem_of_empty].
    intros [[t0 x] Hx]%elem_of_dom.
    apply map_lookup_filter_Some in Hx as [Hx Hbad].
    apply map_lookup_zip_Some in Hx as [Hown Hsd]. cbn in Hbad.
    by rewrite (Hall k t0 x Hown Hsd) in Hbad.
Qed.

Lemma not_copyable_tensors own weights :
  not_copyable copy_ own (PyTensor (Obj:=Obj) <$> weights) = ∅
  ↔ all_fit copy_ own weights.
Proof.
  rewrite not_copyable_empty. unfold all_fit. split.
  - intros Hall k t0 t Hown Hw.
    specialize (Hall k t0 (PyTensor t) Hown).
    rewrite lookup_fmap, Hw in Hall. specialize (Hall eq_refl).
    cbn in Hall. by apply bool_decide_eq_true in Hall.
  - intros Hall k t0 x Hown Hsd. rewrite lookup_fmap in Hsd.
    destruct (weights !! k) as [t|] eqn:Hw; [| done].
    injection Hsd as <-. cbn. apply bool_decide_eq_true. by eapply Hall.
Qed.

Lemma lookup_loaded own weights k :
  merge (copy_param copy_) own (PyTensor (Obj:=Obj) <$> weights) !! k
  = (λ t0, from_option (λ t, default t0 (copy_ t0 t)) t0 (weights !! k))
    <$> own !! k.
Proof.
  rewrite lookup_merge, lookup_fmap.
  by destruct (own !! k), (weights !! k).
Qed.

Lemma dom_merge_copy_param own (sd : gmap string (PyVal Tensor Obj)) :
  dom (merge (copy_param copy_) own sd) = dom own.
Proof.
  apply set_eq. intros k. rewrite !elem_of_dom, lookup_merge.
  destruct (own !! k) as [t0|] eqn:E; cbn.
  - split; [by eexists |]. intros _.
    destruct (sd !! k) as [[o|t|d']|]; by eexists.
  - by destruct (sd !! k).
Qed.

(** *** One run on a well-formed checkpoint *)

Lemma load_model_run path v cfg weights :
  unpickle (py_str path) "cuda:0" = inr v →
  is_checkpoint v cfg weights →
  load_model path =
    match essential (iter (dom (initial_params cfg) ∖ dom weights)) with
    | [] =>
        (if bool_decide (not_copyable copy_ (initial_params cfg)
                           (PyTensor (Obj:=Obj) <$> weights) = ∅)
         then inr (mkModel cfg (merge (copy_param copy_) (initial_params cfg)
                                  (PyTensor (Obj:=Obj) <$> weights)))
         else inl (RuntimeError "Error(s) in loading state_dict for ESMFold"),
         [loading path; EvESMFold cfg; EvLoadStateDict false])
    | ks =>
        (inl (RuntimeError (missing_message ks)),
         [loading path; EvESMFold cfg])
    end.
Proof.
  intros Hfile (d & c & -> & Hcfg & Hmodel & Hstate).
  unfold _load_model, torch_load, lift, call, mbind, Py_bind.
  rewrite Hfile. cbn [getitem]. rewrite Hcfg. cbn [mret Py_ret getitem].
  rewrite Hmodel, Hstate. cbn [mret Py_ret ESMFold call mbind Py_bind keys
    state_dict params app].
  rewrite dom_fmap_L.
  destruct (essential _) as [|k ks]; [| done].
  unfold load_state_dict, call, mbind, Py_bind; cbn [params esmfold_config].
  by destruct (bool_decide _).
Qed.

(** Whether the key check passes, and then whether the copies succeed. *)
Lemma load_model_run_cases path v cfg weights :
  unpickle (py_str path) "cuda:0" = inr v →
  is_checkpoint v cfg weights →
  (∃ k ks, essential (iter (dom (initial_params cfg) ∖ dom weights))
           = k :: ks
           ∧ load_model path
             = (inl (RuntimeError (missing_message (k :: ks))),
                [loading path; EvESMFold cfg]))
  ∨ (essential (iter (dom (initial_params cfg) ∖ dom weights)) = []
     ∧ trace (load_model path)
       = [loading path; EvESMFold cfg; EvLoadStateDict false]
     ∧ ((all_fit copy_ (initial_params cfg) weights
         ∧ outcome (load_model path)
           = inr (mkModel cfg (merge (copy_param copy_) (initial_params cfg)
                                 (PyTensor (Obj:=Obj) <$> weights))))
        ∨ (¬ all_fit copy_ (initial_params cfg) weights
           ∧ outcome (load_model path)
             = inl (RuntimeError
                      "Error(s) in loading state_dict for ESMFold")))).
Proof.
  intros Hfile Hck. rewrite (load_model_run _ _ _ _ Hfile Hck).
  destruct (essential _) as [|k ks]; [right | left; by eexists _, _].
  split; [done |]. split; [done |]. cbn [outcome fst].
  destruct (bool_decide _) eqn:Hcopy.
  - left. apply bool_decide_eq_true in Hcopy.
    by rewrite not_copyable_tensors in Hcopy.
  - right. apply bool_decide_eq_false in Hcopy.
    by rewrite not_copyable_tensors in Hcopy.
Qed.

(** *** Every run

    Whatever the file holds, a run ends in one of three places: before
    the model is built, between construction and weight loading, or after
    the call to [load_state_dict]. *)

Lemma load_model_shape path :
  (∃ e, load_model path = (inl e, [loading path]))
  ∨ (∃ cfg e, load_model path = (inl e, [loading path; EvESMFold cfg])
       ∧ (e = AttributeError "object has no attribute 'keys'"
          ∨ ∃ k ks, e = RuntimeError (missing_message (k :: ks))))
  ∨ (∃ cfg r,
       load_model path
       = (r, [loading path; EvESMFold cfg; EvLoadStateDict false])
       ∧ (r = inl (RuntimeError "Error(s) in loading state_dict for ESMFold")
          ∨ ∃ m, r = inr m)).
Proof.
  unfold _load_model, torch_load, lift, call, mbind, Py_bind.
  destruct (unpickle _ _) as [e|v]; [left; by eexists |].
  destruct v as [o|t|d]; cbn [getitem raise]; [left; by eexists.. |].
  destruct (d !! "cfg") as [cfg_node|]; cbn [mret Py_ret raise];
    [| left; by eexists].
  destruct cfg_node as [o|t|c]; cbn [getitem raise]; [left; by eexists.. |].
  destruct (c !! "model") as [cfg|]; cbn [mret Py_ret raise];
    [| left; by eexists].
  destruct (d !! "model") as [model_state|]; cbn [mret Py_ret raise];
    [| left; by eexists].
  cbn [ESMFold call mbind Py_bind mret Py_ret app state_dict params].
  right.
  destruct model_state as [o|t|sd]; cbn [keys raise mret Py_ret];
    [left; eexists _, _; split; [done | by left].. |].
  destruct (essential _) as [|k ks]; cbn [raise app].
  - right. unfold load_state_dict, call, mbind, Py_bind.
    destruct (_ && _); cbn [mret Py_ret raise app];
      eexists _, _; (split; [done |]); [right; by eexists | by left].
  - left. eexists _, _. split; [done |]. right. by eexists _, _.
Qed.

Lemma missing_message_head ks :
  ∃ rest, missing_message ks = String "K" rest.
Proof. by eexists. Qed.

Lemma load_error_not_missing_message ks :
  "Error(s) in loading state_dict for ESMFold" ≠ missing_message ks.
Proof. destruct (missing_message_head ks) as [rest ->]. done. Qed.

(** *** What a returned model tells about the file *)

Lemma load_model_success_inv path m :
  outcome (load_model path) = inr m →
  ∃ d c cfg sd,
    unpickle (py_str path) "cuda:0" = inr (PyDict d)
    ∧ d !! "cfg" = Some (PyDict c)
    ∧ c !! "model" = Some cfg
    ∧ d !! "model" = Some (PyDict sd)
    ∧ essential (iter (dom (initial_params cfg) ∖ dom sd)) = []
    ∧ not_copyable copy_ (initial_params cfg) sd = ∅
    ∧ load_model path
      = (inr (mkModel cfg
              (merge (copy_param copy_) (initial_params cfg) sd)),
         [loading path; EvESMFold cfg; EvLoadStateDict false]).
Proof.
  unfold _load_model, torch_load, lift, call, mbind, Py_bind.
  destruct (unpickle _ _) as [e|v] eqn:Hfile; [done |].
  destruct v as [o|t|d]; cbn [getitem raise]; [done.. |].
  destruct (d !! "cfg") as [cfg_node|] eqn:Hcfg; cbn [mret Py_ret raise];
    [| done].
  destruct cfg_node as [o|t|c]; cbn [getitem raise]; [done.. |].
  destruct (c !! "model") as [cfg|] eqn:Hmodel; cbn [mret Py_ret raise];
    [| done].
  destruct (d !! "model") as [model_state|] eqn:Hstate;
    cbn [mret Py_ret raise]; [| done].
  cbn [ESMFold call mbind Py_bind mret Py_ret app state_dict params].
  destruct model_state as [o|t|sd]; cbn [keys raise mret Py_ret]; [done.. |].
  destruct (essential _) as [|k ks] eqn:Hess; cbn [raise app]; [| done].
  unfold load_state_dict, call, mbind, Py_bind. cbn [params esmfold_config].
  destruct (bool_decide (not_copyable _ _ _ = ∅)) eqn:Hcopy;
    cbn [andb negb orb mret Py_ret raise app outcome fst]; [| done].
  apply bool_decide_eq_true in Hcopy. intros [= <-].
  by exists d, c, cfg, sd.
Qed.

Lemma essential_Permutation (l1 l2 : list string) :
  l1 ≡ₚ l2 → essential l1 ≡ₚ essential l2.
Proof.
  unfold essential. induction 1 as [|x l1 l2 _ IH|x y l|l1 l2 l3 _ IH1 _ IH2];
    cbn [List.filter].
  - done.
  - destruct (negb _); [by constructor | done].
  - destruct (negb (PyStr.startswith x _)), (negb (PyStr.startswith y _));
      (done || by constructor).
  - by etrans.
Qed.

(** *** Missing keys *)


(** C3, amended. If every key of expected-minus-found starts with
    ["esm."], the missing-keys error is not raised and the call goes on
    to the non-strict [load_state_dict].  It returns the model of the
    checkpoint's configuration, each parameter the checkpoint does not
    provide keeping the tensor it was constructed with, provided every
    stored tensor fits its parameter; otherwise [load_state_dict]'s own
    [RuntimeError] is raised. *)
Theorem load_model_optional_only path v cfg weights :
  unpickle (py_str path) "cuda:0" = inr v →
  is_checkpoint v cfg weights →
  (∀ k, k ∈ dom (initial_params cfg) ∖ dom weights →
        PyStr.startswith k "esm." = true) →
  (∀ ks, outcome (load_model path) ≠ inl (RuntimeError (missing_message ks)))
  ∧ EvLoadStateDict false ∈ trace (load_model path)
  ∧ (all_fit copy_ (initial_params cfg) weights →
     ∃ m, outcome (load_model path) = inr m
          ∧ esmfold_config m = cfg
          ∧ ∀ k, k ∉ dom weights → params m !! k = initial_params cfg !! k)
  ∧ (¬ all_fit copy_ (initial_params cfg) weights →
     ∃ msg, outcome (load_model path) = inl (RuntimeError msg)).
Proof.
  intros Hfile Hck Hall.
  destruct (load_model_run_cases _ _ _ _ Hfile Hck)
    as [(k & ks & Hess & _) | (_ & Htrace & Hload)].
  { by rewrite (proj2 (essential_nil _) Hall) in Hess. }
  split; [| split; [| split]].
  - intros ks Hout.
    destruct Hload as [[_ Ho] | [_ Ho]]; rewrite Ho in Hout; [done |].
    destruct (load_error_not_missing_message ks). congruence.
  - rewrite Htrace. do 2 right. left.
  - intros Hfit. destruct Hload as [[_ Ho] | [Hnot _]]; [| done].
    eexists. split; [done |]. split; [done |]. intros k Hk.
    cbn [params]. rewrite lookup_loaded.
    apply not_elem_of_dom in Hk. rewrite Hk.
    by destruct (initial_params cfg !! k).
  - intros Hnot. destruct Hload as [[Hfit _] | [_ Ho]]; [done | by eexists].
Qed.

(** C4. When a required key is missing, the error is the [RuntimeError]
    whose message joins a duplicate-free list of keys; every missing
    essential key is in the list and occurs in the message, and every
    listed key is expected, absent from the checkpoint and not
    ["esm."]-prefixed. *)
Theorem load_model_error_names_missing path v cfg weights k0 :
  unpickle (py_str path) "cuda:0" = inr v →
  is_checkpoint v cfg weights →
  k0 ∈ dom (initial_params cfg) ∖ dom weights →
  PyStr.startswith k0 "esm." = false →
  ∃ ks, outcome (load_model path) = inl (RuntimeError (missing_message ks))
        ∧ NoDup ks
        ∧ (∀ k, k ∈ dom (initial_params cfg) → k ∉ dom weights →
                PyStr.startswith k "esm." = false →
                k ∈ ks ∧ PyStr.contains k (missing_message ks) = true)
        ∧ (∀ k, k ∈ ks →
                k ∈ dom (initial_params cfg) ∧ (k ∉ dom weights)
                ∧ PyStr.startswith k "esm." = false).
Proof.
  intros Hfile Hck Hk0 Hno0. rewrite (load_model_run _ _ _ _ Hfile Hck).
  set (ks := essential (iter (dom (initial_params cfg) ∖ dom weights))).
  assert (∀ k, k ∈ ks ↔ (k ∈ dom (initial_params cfg) ∧ k ∉ dom weights)
                        ∧ PyStr.startswith k "esm." = false) as Hks.
  { intros k. unfold ks.
    by rewrite elem_of_essential, elem_of_iter, elem_of_difference. }
  assert (k0 ∈ ks) as Hin0.
  { apply Hks. by rewrite <- elem_of_difference. }
  exists ks. destruct ks as [|k1 ks'] eqn:E; [by apply elem_of_nil in Hin0 |].
  split; [done |]. split; [| split].
  - rewrite <- E. apply NoDup_essential, NoDup_iter.
  - intros k Hexp Hnf Hno. assert (k ∈ k1 :: ks') as Hin by (by apply Hks).
    split; [done |]. unfold missing_message.
    by apply PyStrFacts.contains_app_r, PyStrFacts.contains_app_l,
      PyStrFacts.contains_join.
  - intros k Hin. apply Hks in Hin. tauto.
Qed.

(** C5, amended. With no required key missing, [_load_model] makes a
    single non-strict [load_state_dict] call after [torch.load] and the
    construction.  Keys that only the checkpoint has and ["esm."] keys it
    lacks play no part: the model is returned whenever every tensor stored
    under a parameter name of the model fits that parameter, with exactly
    its own parameter names, each holding the stored tensor as copied into
    it when the checkpoint has one and its initial tensor otherwise.  A
    stored tensor that does not fit makes [load_state_dict] raise its own
    [RuntimeError], which is not the missing-keys error. *)
Theorem load_model_permissive path v cfg weights :
  unpickle (py_str path) "cuda:0" = inr v →
  is_checkpoint v cfg weights →
  (∀ k, k ∈ dom (initial_params cfg) →
        PyStr.startswith k "esm." = false → k ∈ dom weights) →
  trace (load_model path)
  = [loading path; EvESMFold cfg; EvLoadStateDict false]
  ∧ (all_fit copy_ (initial_params cfg) weights →
     ∃ m, outcome (load_model path) = inr m
          ∧ dom (params m) = dom (initial_params cfg)
          ∧ ∀ k t0, initial_params cfg !! k = Some t0 →
                    match weights !! k with
                    | Some t => params m !! k = copy_ t0 t
                    | None => params m !! k = Some t0
                    end)
  ∧ (¬ all_fit copy_ (initial_params cfg) weights →
     ∃ msg, outcome (load_model path) = inl (RuntimeError msg)
            ∧ ∀ ks, msg ≠ missing_message ks).
Proof.
  intros Hfile Hck Hreq.
  destruct (load_model_run_cases _ _ _ _ Hfile Hck)
    as [(k & ks & Hess & _) | (_ & Htrace & Hload)].
  { assert (k ∈ dom (initial_params cfg) ∖ dom weights
            ∧ PyStr.startswith k "esm." = false) as [Hk Hno].
    { rewrite <- (elem_of_iter _ k), <- elem_of_essential, Hess. left. }
    apply elem_of_difference in Hk as [Hexp Hnf]. destruct Hnf.
    by apply Hreq. }
  split; [done |]. split.
  - intros Hfit. destruct Hload as [[_ Ho] | [Hnot _]]; [| done].
    eexists. split; [done |]. cbn [params].
    split; [apply dom_merge_copy_param |]. intros k t0 Hown.
    rewrite lookup_loaded, Hown. cbn.
    destruct (weights !! k) as [t|] eqn:Hw; [| done]. cbn.
    destruct (Hfit k t0 t Hown Hw) as [t' Ht']. by rewrite Ht'.
  - intros Hnot. destruct Hload as [[Hfit _] | [_ Ho]]; [done |].
    eexists. split; [done |]. apply load_error_not_missing_message.
Qed.

(** C8. A missing expected key is left out of the error exactly when
    its name is ["esm."] followed by something, that is when ["esm."]
    sits at position 0; every other missing key, wherever else it may
    contain ["esm."], is listed and makes the load fail. *)
Theorem optional_prefix_at_start_only path v cfg weights k :
  unpickle (py_str path) "cuda:0" = inr v →
  is_checkpoint v cfg weights →
  k ∈ dom (initial_params cfg) ∖ dom weights →
  (k ∉ essential (iter (dom (initial_params cfg) ∖ dom weights))
   ↔ ∃ rest, k = "esm." +:+ rest)
  ∧ ((¬ ∃ rest, k = "esm." +:+ rest) →
     ∃ ks, outcome (load_model path)
           = inl (RuntimeError (missing_message ks))
           ∧ k ∈ ks).
Proof.
  intros Hfile Hck Hk. rewrite (load_model_run _ _ _ _ Hfile Hck).
  rewrite elem_of_essential, elem_of_iter, <- PyStrFacts.startswith_spec.
  split.
  - destruct (PyStr.startswith k "esm.").
    + split; [done |]. by intros _ [_ ?].
    + split; [| done]. intros Hnot. destruct Hnot. by split.
  - intros Hno.
    assert (k ∈ essential (iter (dom (initial_params cfg) ∖ dom weights)))
      as Hin.
    { rewrite elem_of_essential, elem_of_iter. split; [done |].
      by destruct (PyStr.startswith k "esm."). }
    destruct (essential _) as [|k1 ks]; [by apply elem_of_nil in Hin |].
    by eexists.
Qed.

(** *** Order of effects *)

(** C6. Whenever [_load_model] ends in the missing-keys [RuntimeError],
    the log of that call has no [load_state_dict] entry: the error comes
    before any weight is copied. *)
Theorem missing_keys_error_before_loading path ks :
  outcome (load_model path) = inl (RuntimeError (missing_message ks)) →
  ∀ strict, EvLoadStateDict strict ∉ trace (load_model path).
Proof.
  intros Hout strict Hin.
  destruct (load_model_shape path)
    as [[e Hrun] | [(cfg & e & Hrun & _) | (cfg & r & Hrun & Hr)]];
    rewrite Hrun in Hout, Hin; cbn [outcome trace fst snd] in Hout, Hin.
  - in_log Hin.
  - in_log Hin.
  - destruct Hr as [-> | [m ->]]; [| done].
    destruct (missing_message_head ks) as [rest Hk].
    rewrite Hk in Hout. done.
Qed.

(** C7. Whatever the path and whatever the file holds, [_load_model]
    starts with one [torch.load] of [str(path)] onto ["cuda:0"] and makes
    no other.  What that call yields is what the loader works on: its
    failure is the loader's failure, a returned model has the
    configuration found in the dictionary it gave, and the run stays the
    same under any change of what [torch.load] would yield for another
    file or another device. *)
Theorem load_model_fixed_device path :
  (∃ rest, trace (load_model path)
           = EvTorchLoad (py_str path) "cuda:0" :: rest
           ∧ ∀ file device, EvTorchLoad file device ∉ rest)
  ∧ (∀ e, unpickle (py_str path) "cuda:0" = inl e →
          load_model path = (inl e, [loading path]))
  ∧ (∀ m, outcome (load_model path) = inr m →
          ∃ d c, unpickle (py_str path) "cuda:0" = inr (PyDict d)
                 ∧ d !! "cfg" = Some (PyDict c)
                 ∧ c !! "model" = Some (esmfold_config m))
  ∧ (∀ unpickle' : string → string → PyError + PyVal Tensor Obj,
       unpickle' (py_str path) "cuda:0" = unpickle (py_str path) "cuda:0" →
       _load_model unpickle' initial_params copy_ iter path
       = load_model path).
Proof.
  split; [| split; [| split]].
  - destruct (load_model_shape path)
      as [[e Hrun] | [(cfg & e & Hrun & _) | (cfg & r & Hrun & _)]];
      rewrite Hrun; cbn [trace snd]; eexists; (split; [done |]);
      intros file device Hin; in_log Hin.
  - intros e Hfile. unfold _load_model, torch_load, lift, call, mbind, Py_bind.
    by rewrite Hfile.
  - intros m Hout.
    destruct (load_model_success_inv _ _ Hout)
      as (d & c & cfg & sd & Hfile & Hcfg & Hmodel & _ & _ & _ & Hrun).
    rewrite Hrun in Hout. injection Hout as <-. by exists d, c.
  - intros unpickle' Hsame. unfold _load_model, torch_load.
    by rewrite Hsame.
Qed.

(** C10. If the deserialised dictionary has no ["cfg"], or its ["cfg"]
    dictionary has no ["model"], or it has no top-level ["model"], the
    call ends in [KeyError] on that key right after [torch.load]: the
    model is not constructed, so the key comparison never runs, and the
    error is not the [RuntimeError] of the comparison. *)
Theorem load_model_lookup_error path d k :
  unpickle (py_str path) "cuda:0" = inr (PyDict d) →
  lacks_field d k →
  load_model path = (inl (KeyError k), [loading path])
  ∧ (∀ msg, outcome (load_model path) ≠ inl (RuntimeError msg))
  ∧ (∀ cfg, EvESMFold cfg ∉ trace (load_model path)).
Proof.
  intros Hfile Hlack.
  assert (load_model path = (inl (KeyError k), [loading path])) as Hrun.
  { unfold _load_model, torch_load, lift, call, mbind, Py_bind.
    rewrite Hfile. cbn [getitem].
    destruct Hlack as [[Hcfg ->] | (c & Hcfg & -> & Hmodel)];
      rewrite Hcfg; [done |]. cbn [mret Py_ret getitem].
    destruct (c !! "model") as [cfg|] eqn:Ec; [| done].
    destruct Hmodel as [? | Hmodel]; [done |]. by rewrite Hmodel. }
  rewrite Hrun. cbn [outcome trace fst snd].
  split; [done |]. split; [done |]. intros cfg Hin. in_log Hin.
Qed.

(** *** The selectors *)

#[local] Abbreviation v0 := (esmfold_v0 unpickle initial_params copy_ iter).
#[local] Abbreviation v1 := (esmfold_v1 unpickle initial_params copy_ iter).

Lemma Py_bind_ret {A B} (a : A) (f : A → Py Tensor Obj B) :
  mret a ≫= f = f a.
Proof. unfold mbind, Py_bind, mret, Py_ret. by destruct (f a). Qed.

(** What a selector returns once it has decided to load. *)
Lemma selector_loads :
  ∀ c : Py Tensor Obj (Model Tensor Obj),
    outcome (model ← c; mret (Some model)) = sum_map id Some (outcome c)
    ∧ trace (model ← c; mret (Some model)) = trace c.
Proof.
  intros [[e|m] log]; unfold mbind, Py_bind; cbn; [done |].
  by rewrite app_nil_r.
Qed.

(** C2, amended. Each selector decides on the whole POSIX text of the
    path: if the text contains the identifier (in particular whenever the
    final component does) the selector runs [_load_model] on the path and
    returns its result, a model or the loader's error; otherwise it
    returns [None] without touching the file. *)
Theorem selectors_match_whole_path (p : Path) :
  (if PyStr.contains "esmfold_3B_v0" (as_posix p)
   then outcome (v0 (ArgPath p))
        = sum_map id Some (outcome (load_model (ArgPath p)))
        ∧ trace (v0 (ArgPath p)) = trace (load_model (ArgPath p))
   else v0 (ArgPath p) = (inr None, []))
  ∧ (if PyStr.contains "esmfold_3B_v1" (as_posix p)
     then outcome (v1 (ArgPath p))
          = sum_map id Some (outcome (load_model (ArgPath p)))
          ∧ trace (v1 (ArgPath p)) = trace (load_model (ArgPath p))
     else v1 (ArgPath p) = (inr None, []))
  ∧ (PyStr.contains "esmfold_3B_v0" (name p) = true →
     PyStr.contains "esmfold_3B_v0" (as_posix p) = true)
  ∧ (PyStr.contains "esmfold_3B_v1" (name p) = true →
     PyStr.contains "esmfold_3B_v1" (as_posix p) = true).
Proof.
  split; [| split; [| split; apply contains_name_as_posix]].
  - unfold esmfold_v0. cbn [py_as_posix].
    rewrite Py_bind_ret.
    destruct (PyStr.contains _ _); [apply selector_loads | done].
  - unfold esmfold_v1. cbn [py_as_posix].
    rewrite Py_bind_ret.
    destruct (PyStr.contains _ _); [apply selector_loads | done].
Qed.

(** C9. Given a plain [str], both selectors raise [AttributeError] at the
    call of [as_posix], before anything is loaded; they return neither
    [None] nor a model. *)
Theorem selectors_reject_str (s : string) :
  v0 (ArgStr s)
  = (inl (AttributeError "'str' object has no attribute 'as_posix'"), [])
  ∧ v1 (ArgStr s)
    = (inl (AttributeError "'str' object has no attribute 'as_posix'"), []).
Proof. done. Qed.

(** ** Further properties of the loader *)

(** X1. A model is returned only if the file held a dictionary with
    ["cfg"]["model"] and a ["model"] dictionary, and then every parameter
    of the model whose name does not start with ["esm."] holds the result
    of copying into it the tensor stored under that name in the file: no
    essential weight is left as constructed.  Parameter names are those of
    the constructed model. *)
Theorem returned_model_has_essential_weights path m :
  outcome (load_model path) = inr m →
  ∃ d c sd,
    unpickle (py_str path) "cuda:0" = inr (PyDict d)
    ∧ d !! "cfg" = Some (PyDict c)
    ∧ c !! "model" = Some (esmfold_config m)
    ∧ d !! "model" = Some (PyDict sd)
    ∧ dom (params m) = dom (initial_params (esmfold_config m))
    ∧ ∀ k, k ∈ dom (params m) → PyStr.startswith k "esm." = false →
           ∃ t0 t t',
             initial_params (esmfold_config m) !! k = Some t0
             ∧ sd !! k = Some (PyTensor t)
             ∧ copy_ t0 t = Some t'
             ∧ params m !! k = Some t'.
Proof.
  intros Hout.
  destruct (load_model_success_inv _ _ Hout)
    as (d & c & cfg & sd & Hfile & Hcfg & Hmodel & Hstate & Hess & Hcopy
        & Hrun).
  rewrite Hrun in Hout. injection Hout as <-. cbn [esmfold_config params].
  exists d, c, sd. do 4 (split; [done |]).
  split; [apply dom_merge_copy_param |].
  rewrite dom_merge_copy_param. intros k Hk Hno.
  assert (k ∈ dom sd) as Hsd.
  { destruct (decide (k ∈ dom sd)) as [|Hnot]; [done |].
    pose proof (proj1 (essential_nil _) Hess k) as Hopt.
    rewrite Hopt in Hno; [done |]. by apply elem_of_difference. }
  apply elem_of_dom in Hk as [t0 Ht0]. apply elem_of_dom in Hsd as [x Hx].
  pose proof (proj1 (not_copyable_empty _ _) Hcopy k t0 x Ht0 Hx) as Hfit.
  destruct x as [o|t|d']; cbn in Hfit; [done | | done].
  apply bool_decide_eq_true in Hfit as [t' Ht'].
  exists t0, t, t'. do 3 (split; [done |]).
  by rewrite lookup_merge, Ht0, Hx; cbn; rewrite Ht'.
Qed.

(** *** What the result does not depend on *)

Lemma load_model_run_with (it : gset string → list string)
    path v cfg weights :
  unpickle (py_str path) "cuda:0" = inr v →
  is_checkpoint v cfg weights →
  _load_model unpickle initial_params copy_ it path =
    match essential (it (dom (initial_params cfg) ∖ dom weights)) with
    | [] =>
        (if bool_decide (not_copyable copy_ (initial_params cfg)
                           (PyTensor (Obj:=Obj) <$> weights) = ∅)
         then inr (mkModel cfg (merge (copy_param copy_) (initial_params cfg)
                                  (PyTensor (Obj:=Obj) <$> weights)))
         else inl (RuntimeError "Error(s) in loading state_dict for ESMFold"),
         [loading path; EvESMFold cfg; EvLoadStateDict false])
    | ks =>
        (inl (RuntimeError (missing_message ks)),
         [loading path; EvESMFold cfg])
    end.
Proof.
  intros Hfile (d & c & -> & Hcfg & Hmodel & Hstate).
  unfold _load_model, torch_load, lift, call, mbind, Py_bind.
  rewrite Hfile. cbn [getitem]. rewrite Hcfg. cbn [mret Py_ret getitem].
  rewrite Hmodel, Hstate. cbn [mret Py_ret ESMFold call mbind Py_bind keys
    state_dict params app].
  rewrite dom_fmap_L.
  destruct (essential _) as [|k ks]; [| done].
  unfold load_state_dict, call, mbind, Py_bind; cbn [params esmfold_config].
  by destruct (bool_decide _).
Qed.

(** X2. Two checkpoint files with the same configuration whose weights
    agree on every parameter name of the model give the same outcome in
    two runs, whatever order each run enumerates the missing keys in: the
    same model, the same [load_state_dict] error, or the missing-keys
    error for the same keys, the two messages listing them in possibly
    different orders.  Entries under names the model does not declare
    never matter. *)
Theorem undeclared_entries_irrelevant (iter' : gset string → list string)
    path1 path2 v1 v2 cfg weights1 weights2 :
  (∀ s, iter' s ≡ₚ elements s) →
  unpickle (py_str path1) "cuda:0" = inr v1 →
  is_checkpoint v1 cfg weights1 →
  unpickle (py_str path2) "cuda:0" = inr v2 →
  is_checkpoint v2 cfg weights2 →
  (∀ k, k ∈ dom (initial_params cfg) → weights1 !! k = weights2 !! k) →
  outcome (load_model path1)
  = outcome (_load_model unpickle initial_params copy_ iter' path2)
  ∨ ∃ ks ks',
      ks ≡ₚ ks'
      ∧ outcome (load_model path1) = inl (RuntimeError (missing_message ks))
      ∧ outcome (_load_model unpickle initial_params copy_ iter' path2)
        = inl (RuntimeError (missing_message ks')).
Proof.
  intros Hperm Hfile1 Hck1 Hfile2 Hck2 Hagree.
  rewrite (load_model_run _ _ _ _ Hfile1 Hck1).
  rewrite (load_model_run_with iter' _ _ _ _ Hfile2 Hck2).
  assert (dom (initial_params cfg) ∖ dom weights1
          = dom (initial_params cfg) ∖ dom weights2) as ->.
  { apply set_eq. intros k. rewrite !elem_of_difference.
    split; intros [Hk Hno]; (split; [done |]);
      rewrite elem_of_dom in Hno |- *;
      [by rewrite <- (Hagree k Hk) | by rewrite (Hagree k Hk)]. }
  set (s := dom (initial_params cfg) ∖ dom weights2).
  assert (essential (iter s) ≡ₚ essential (iter' s)) as Hks.
  { apply essential_Permutation. by rewrite (iter_perm s), (Hperm s). }
  destruct (essential (iter s)) as [|k ks], (essential (iter' s)) as [|k' ks'].
  - left. cbn [outcome fst].
    assert (merge (copy_param copy_) (initial_params cfg)
                  (PyTensor (Obj:=Obj) <$> weights1)
            = merge (copy_param copy_) (initial_params cfg)
                    (PyTensor (Obj:=Obj) <$> weights2)) as ->.
    { apply map_eq. intros k. rewrite !lookup_loaded.
      destruct (initial_params cfg !! k) as [t0|] eqn:E; [| done].
      cbn. by rewrite (Hagree k) by (apply elem_of_dom; by eexists). }
    assert (all_fit copy_ (initial_params cfg) weights1
            ↔ all_fit copy_ (initial_params cfg) weights2) as Hfit.
    { unfold all_fit. split; intros Hall k t0 t Hown Hw;
        apply (Hall k t0 t Hown);
        [rewrite Hagree | rewrite <- Hagree]; try done;
        apply elem_of_dom; by eexists. }
    rewrite <- !not_copyable_tensors in Hfit.
    by rewrite (bool_decide_ext _ _ Hfit).
  - by apply Permutation_nil_cons in Hks.
  - symmetry in Hks. by apply Permutation_nil_cons in Hks.
  - right. by exists (k :: ks), (k' :: ks').
Qed.

(** X3. The order in which Python enumerates the set of missing keys
    changes nothing but the order of the names in the error message: under
    any two enumeration orders the two runs are equal, or both raise the
    missing-keys error with the same log, each listing a rearrangement of
    the other's keys. *)
Theorem enumeration_order_irrelevant (iter' : gset string → list string) path :
  (∀ s, iter' s ≡ₚ elements s) →
  load_model path = _load_model unpickle initial_params copy_ iter' path
  ∨ ∃ ks ks',
      ks ≡ₚ ks'
      ∧ outcome (load_model path) = inl (RuntimeError (missing_message ks))
      ∧ outcome (_load_model unpickle initial_params copy_ iter' path)
        = inl (RuntimeError (missing_message ks'))
      ∧ trace (load_model path)
        = trace (_load_model unpickle initial_params copy_ iter' path).
Proof.
  intros Hperm.
  unfold _load_model, torch_load, lift, call, mbind, Py_bind.
  destruct (unpickle _ _) as [e|v]; [by left |].
  destruct v as [o|t|d]; cbn [getitem raise]; [by left.. |].
  destruct (d !! "cfg") as [cfg_node|]; cbn [mret Py_ret raise];
    [| by left].
  destruct cfg_node as [o|t|c]; cbn [getitem raise]; [by left.. |].
  destruct (c !! "model") as [cfg|]; cbn [mret Py_ret raise]; [| by left].
  destruct (d !! "model") as [model_state|]; cbn [mret Py_ret raise];
    [| by left].
  cbn [ESMFold call mbind Py_bind mret Py_ret app state_dict params].
  destruct model_state as [o|t|sd]; cbn [keys raise mret Py_ret];
    [by left.. |].
  set (s := dom (initial_params cfg) ∖ dom sd).
  assert (essential (iter s) ≡ₚ essential (iter' s)) as Hks.
  { apply essential_Permutation. by rewrite (iter_perm s), (Hperm s). }
  destruct (essential (iter s)) as [|k ks], (essential (iter' s)) as [|k' ks'].
  - by left.
  - by apply Permutation_nil_cons in Hks.
  - symmetry in Hks. by apply Permutation_nil_cons in Hks.
  - right. by exists (k :: ks), (k' :: ks').
Qed.

Lemma NoDup_all_equal (l : list string) k :
  NoDup l → k ∈ l → (∀ x, x ∈ l → x = k) → l = [k].
Proof.
  intros Hnd Hin Hall. destruct l as [|x l]; [by apply elem_of_nil in Hin |].
  assert (x = k) as -> by (apply Hall; left).
  apply NoDup_cons in Hnd as [Hnot _]. destruct l as [|y l]; [done |].
  assert (y = k) as -> by (apply Hall; right; left).
  destruct Hnot. left.
Qed.

(** X4. When exactly one essential key is missing, the error message is
    that key between the fixed opening and closing words, whatever else is
    missing under ["esm."] and whatever the enumeration order. *)
Theorem single_missing_key_message path v cfg weights k :
  unpickle (py_str path) "cuda:0" = inr v →
  is_checkpoint v cfg weights →
  filter (λ x, PyStr.startswith x "esm." = false)
         (dom (initial_params cfg) ∖ dom weights) = {[ k ]} →
  outcome (load_model path)
  = inl (RuntimeError ("Keys '" +:+ k +:+ "' are missing.")).
Proof.
  intros Hfile Hck Hone. rewrite (load_model_run _ _ _ _ Hfile Hck).
  set (s := dom (initial_params cfg) ∖ dom weights) in *.
  assert (∀ x, x ∈ essential (iter s) ↔ x = k) as Hks.
  { intros x. rewrite elem_of_essential, elem_of_iter.
    rewrite <- (elem_of_singleton (C:=gset string)), <- Hone, elem_of_filter.
    tauto. }
  assert (essential (iter s) = [k]) as ->; [| done].
  apply NoDup_all_equal.
  - apply NoDup_essential, NoDup_iter.
  - by apply Hks.
  - intros x. apply Hks.
Qed.

(** *** When the collaborators are called *)

(** X5. The model is constructed only after all three lookups succeeded,
    and from the value found at ["cfg"]["model"]: an [ESMFold] entry in the
    log means the file held a dictionary with that configuration and with
    a top-level ["model"] entry. *)
Theorem constructed_from_file_configuration path cfg :
  EvESMFold cfg ∈ trace (load_model path) →
  ∃ d c model_state,
    unpickle (py_str path) "cuda:0" = inr (PyDict d)
    ∧ d !! "cfg" = Some (PyDict c)
    ∧ c !! "model" = Some cfg
    ∧ d !! "model" = Some model_state.
Proof.
  unfold _load_model, torch_load, lift, call, mbind, Py_bind.
  destruct (unpickle _ _) as [e|v] eqn:Hfile;
    [cbn [trace snd]; intros Hin; in_log Hin |].
  destruct v as [o|t|d]; cbn [getitem raise trace snd];
    [intros Hin; in_log Hin.. |].
  destruct (d !! "cfg") as [cfg_node|] eqn:Hcfg;
    cbn [mret Py_ret raise trace snd]; [| intros Hin; in_log Hin].
  destruct cfg_node as [o|t|c]; cbn [getitem raise trace snd];
    [intros Hin; in_log Hin.. |].
  destruct (c !! "model") as [cfg'|] eqn:Hmodel;
    cbn [mret Py_ret raise trace snd]; [| intros Hin; in_log Hin].
  destruct (d !! "model") as [model_state|] eqn:Hstate;
    cbn [mret Py_ret raise trace snd]; [| intros Hin; in_log Hin].
  cbn [ESMFold call mbind Py_bind mret Py_ret app state_dict params].
  intros Hin. exists d, c, model_state.
  assert (cfg = cfg') as ->; [| done].
  destruct model_state as [o|t|sd]; cbn [keys raise mret Py_ret] in Hin;
    [cbn [trace snd app] in Hin; in_log Hin; done.. |].
  destruct (essential _) as [|k ks]; cbn [raise app trace snd] in Hin;
    [| in_log Hin; done].
  unfold load_state_dict, call, mbind, Py_bind in Hin.
  destruct (_ && _); cbn [mret Py_ret raise app trace snd] in Hin;
    in_log Hin; done.
Qed.

(** X6. [load_state_dict] is called only when the key check has passed,
    and only non-strictly: such an entry in the log means that the flag is
    [False], that it is the third and last call after [torch.load] and the
    construction, and that every parameter name of the model not starting
    with ["esm."] is a key of the file's ["model"] dictionary. *)
Theorem weights_copied_only_after_check path strict :
  EvLoadStateDict strict ∈ trace (load_model path) →
  strict = false
  ∧ ∃ d cfg sd,
      unpickle (py_str path) "cuda:0" = inr (PyDict d)
      ∧ d !! "model" = Some (PyDict sd)
      ∧ trace (load_model path)
        = [loading path; EvESMFold cfg; EvLoadStateDict false]
      ∧ ∀ k, k ∈ dom (initial_params cfg) →
             PyStr.startswith k "esm." = false → k ∈ dom sd.
Proof.
  unfold _load_model, torch_load, lift, call, mbind, Py_bind.
  destruct (unpickle _ _) as [e|v] eqn:Hfile;
    [cbn [trace snd]; intros Hin; in_log Hin |].
  destruct v as [o|t|d]; cbn [getitem raise trace snd];
    [intros Hin; in_log Hin.. |].
  destruct (d !! "cfg") as [cfg_node|] eqn:Hcfg;
    cbn [mret Py_ret raise trace snd]; [| intros Hin; in_log Hin].
  destruct cfg_node as [o|t|c]; cbn [getitem raise trace snd];
    [intros Hin; in_log Hin.. |].
  destruct (c !! "model") as [cfg|] eqn:Hmodel;
    cbn [mret Py_ret raise trace snd]; [| intros Hin; in_log Hin].
  destruct (d !! "model") as [model_state|] eqn:Hstate;
    cbn [mret Py_ret raise trace snd]; [| intros Hin; in_log Hin].
  cbn [ESMFold call mbind Py_bind mret Py_ret app state_dict params].
  destruct model_state as [o|t|sd]; cbn [keys raise mret Py_ret];
    [cbn [trace snd app]; intros Hin; in_log Hin.. |].
  destruct (essential _) as [|k ks] eqn:Hess; cbn [raise app trace snd];
    [| intros Hin; in_log Hin].
  unfold load_state_dict, call, mbind, Py_bind.
  assert (∀ k, k ∈ dom (initial_params cfg) →
               PyStr.startswith k "esm." = false → k ∈ dom sd) as Hreq.
  { intros k Hk Hno. destruct (decide (k ∈ dom sd)) as [|Hnot]; [done |].
    rewrite (proj1 (essential_nil _) Hess k) in Hno; [done |].
    by apply elem_of_difference. }
  destruct (_ && _); cbn [mret Py_ret raise app trace snd];
    intros Hin; in_log Hin; (split; [done |]); by exists d, cfg, sd.
Qed.

(** *** Failures before the key check *)

(** X7. When [torch.load] returns a dictionary, [_load_model] raises
    [KeyError] on a key exactly when that key is the first of the three
    lookups to fail: ["cfg"] when there is no ["cfg"], ["model"] when the
    ["cfg"] dictionary has no ["model"] or the file has no top-level
    ["model"].  No other run on a dictionary ends in [KeyError]. *)
Theorem key_error_iff_lacks_field path d k :
  unpickle (py_str path) "cuda:0" = inr (PyDict d) →
  outcome (load_model path) = inl (KeyError k) ↔ lacks_field d k.
Proof.
  intros Hfile.
  unfold _load_model, torch_load, lift, call, mbind, Py_bind, lacks_field.
  rewrite Hfile. cbn [getitem].
  destruct (d !! "cfg") as [cfg_node|] eqn:Hcfg;
    cbn [mret Py_ret raise outcome fst].
  2: { split; [intros [= <-]; by left | intros [[_ ->] | (c & ? & _)]; done]. }
  destruct cfg_node as [o|t|c]; cbn [getitem raise outcome fst].
  1, 2: split; [done | intros [[? _] | (c & ? & _)]; done].
  destruct (c !! "model") as [cfg|] eqn:Hmodel;
    cbn [mret Py_ret raise outcome fst].
  2: { split.
       - intros [= <-]. right. exists c. do 2 (split; [done |]). by left.
       - intros [[? _] | (c' & _ & -> & _)]; done. }
  destruct (d !! "model") as [model_state|] eqn:Hstate;
    cbn [mret Py_ret raise outcome fst].
  2: { split.
       - intros [= <-]. right. exists c. do 2 (split; [done |]). by right.
       - intros [[? _] | (c' & _ & -> & _)]; done. }
  cbn [ESMFold call mbind Py_bind mret Py_ret app state_dict params].
  split.
  - destruct model_state as [o|t|sd]; cbn [keys raise mret Py_ret fst];
      [done.. |].
    destruct (essential _) as [|k1 ks]; cbn [raise fst]; [| done].
    unfold load_state_dict, call, mbind, Py_bind.
    by destruct (_ && _).
  - intros [[? _] | (c' & Hc' & _ & [Hnone | Hnone])]; [done | | done].
    by simplify_eq.
Qed.

(** X8. If the file's top-level ["model"] entry is not a dictionary, the
    call ends in [AttributeError], and only after the model has been
    constructed from the configuration: the log shows [torch.load] and
    [ESMFold] but no [load_state_dict]. *)
Theorem model_entry_not_a_dictionary path d c cfg model_state :
  unpickle (py_str path) "cuda:0" = inr (PyDict d) →
  d !! "cfg" = Some (PyDict c) →
  c !! "model" = Some cfg →
  d !! "model" = Some model_state →
  (∀ sd, model_state ≠ PyDict sd) →
  (∃ msg, outcome (load_model path) = inl (AttributeError msg))
  ∧ trace (load_model path) = [loading path; EvESMFold cfg].
Proof.
  intros Hfile Hcfg Hmodel Hstate Hnot.
  unfold _load_model, torch_load, lift, call, mbind, Py_bind.
  rewrite Hfile. cbn [getitem]. rewrite Hcfg. cbn [mret Py_ret getitem].
  rewrite Hmodel, Hstate.
  cbn [mret Py_ret ESMFold call mbind Py_bind app state_dict params].
  destruct model_state as [o|t|sd]; cbn [keys raise outcome trace fst snd];
    [by split; [eexists |].. |].
  by destruct (Hnot sd).
Qed.

(** ** Further properties of the selectors *)

Lemma esmfold_v0_run (p : Path) :
  v0 (ArgPath p)
  = if PyStr.contains "esmfold_3B_v0" (as_posix p)
    then model ← load_model (ArgPath p); mret (Some model)
    else mret None.
Proof. unfold esmfold_v0. cbn [py_as_posix]. by rewrite Py_bind_ret. Qed.

Lemma esmfold_v1_run (p : Path) :
  v1 (ArgPath p)
  = if PyStr.contains "esmfold_3B_v1" (as_posix p)
    then model ← load_model (ArgPath p); mret (Some model)
    else mret None.
Proof. unfold esmfold_v1. cbn [py_as_posix]. by rewrite Py_bind_ret. Qed.

Lemma selector_loads_not_None (c : Py Tensor Obj (Model Tensor Obj)) :
  outcome (model ← c; mret (Some model)) ≠ inr None.
Proof.
  rewrite (proj1 (selector_loads c)). by destruct (outcome c).
Qed.

(** X9. A selector returns [None] exactly when the path's POSIX text lacks
    its identifier: [None] always means a name mismatch, never a failed or
    skipped load of a matching path. *)
Theorem selector_None_iff_no_match (p : Path) :
  (outcome (v0 (ArgPath p)) = inr None
   ↔ PyStr.contains "esmfold_3B_v0" (as_posix p) = false)
  ∧ (outcome (v1 (ArgPath p)) = inr None
     ↔ PyStr.contains "esmfold_3B_v1" (as_posix p) = false).
Proof.
  rewrite esmfold_v0_run, esmfold_v1_run. split.
  - destruct (PyStr.contains _ _); [| done].
    split; [| done]. intros H. by apply selector_loads_not_None in H.
  - destruct (PyStr.contains _ _); [| done].
    split; [| done]. intros H. by apply selector_loads_not_None in H.
Qed.

(** X10. If [torch.load] fails on the path (no such file, a file that is
    no checkpoint), [_load_model] raises that same error with nothing else
    done, and a selector whose identifier the path contains raises it too
    instead of returning [None]. *)
Theorem read_failure_propagates (p : Path) e :
  unpickle (str p) "cuda:0" = inl e →
  load_model (ArgPath p) = (inl e, [loading (ArgPath p)])
  ∧ (PyStr.contains "esmfold_3B_v0" (as_posix p) = true →
     v0 (ArgPath p) = (inl e, [loading (ArgPath p)]))
  ∧ (PyStr.contains "esmfold_3B_v1" (as_posix p) = true →
     v1 (ArgPath p) = (inl e, [loading (ArgPath p)])).
Proof.
  intros Hfile.
  assert (load_model (ArgPath p) = (inl e, [loading (ArgPath p)])) as Hrun.
  { unfold _load_model, torch_load, lift, call, mbind, Py_bind.
    cbn [py_str]. by rewrite Hfile. }
  split; [done |].
  rewrite esmfold_v0_run, esmfold_v1_run, Hrun.
  split; intros ->; done.
Qed.

(** X11. The two selectors differ in nothing but the identifier they look
    for: on a path whose text contains both identifiers they perform the
    same call and return the same result; the file's content is never
    checked against the version. *)
Theorem selectors_agree_when_both_match (p : Path) :
  PyStr.contains "esmfold_3B_v0" (as_posix p) = true →
  PyStr.contains "esmfold_3B_v1" (as_posix p) = true →
  v0 (ArgPath p) = v1 (ArgPath p)
  ∧ outcome (v0 (ArgPath p))
    = sum_map id Some (outcome (load_model (ArgPath p))).
Proof.
  intros H0 H1. rewrite esmfold_v0_run, esmfold_v1_run, H0, H1.
  split; [done | apply selector_loads].
Qed.

(** X12. A selector reads at most the file it was given and only onto
    ["cuda:0"]: whatever the argument, every [torch.load] in its log is of
    [str(path)] with that device.  For a plain [str], and for a [Path]
    whose text lacks the identifier, its log is empty: nothing is read. *)
Theorem selectors_read_only_given_path path :
  (∀ file device, EvTorchLoad file device ∈ trace (v0 path) →
                  file = py_str path ∧ device = "cuda:0")
  ∧ (∀ file device, EvTorchLoad file device ∈ trace (v1 path) →
                    file = py_str path ∧ device = "cuda:0")
  ∧ match path with
    | ArgStr _ => trace (v0 path) = [] ∧ trace (v1 path) = []
    | ArgPath p =>
        (PyStr.contains "esmfold_3B_v0" (as_posix p) = false →
         trace (v0 path) = [])
        ∧ (PyStr.contains "esmfold_3B_v1" (as_posix p) = false →
           trace (v1 path) = [])
    end.
Proof.
  assert (∀ file device,
            EvTorchLoad file device ∈ trace (load_model path) →
            file = py_str path ∧ device = "cuda:0") as Hload.
  { intros file device.
    destruct (load_model_shape path)
      as [[e Hrun] | [(cfg & e & Hrun & _) | (cfg & r & Hrun & _)]];
      rewrite Hrun; cbn [trace snd]; intros Hin; in_log Hin; done. }
  destruct path as [s|p].
  - split; [| split; [| done]];
      intros file device Hin; cbn in Hin; by apply elem_of_nil in Hin.
  - rewrite esmfold_v0_run, esmfold_v1_run.
    split; [| split; [| split; by intros ->]];
      intros file device; (destruct (PyStr.contains _ _);
        [rewrite (proj2 (selector_loads _)); apply Hload
        | intros Hin; cbn in Hin; by apply elem_of_nil in Hin]).
Qed.

End LoaderProperties.

(** ** The properties in the concrete world *)

Section WorldFacts.
Import World.

#[local] Abbreviation at_file f := (unpickle f "cuda:0").

#[local] Abbreviation iter_elements :=
  (λ s : gset string, reflexivity (elements s)).

Lemma full_is_checkpoint : is_checkpoint (checkpoint full) cfg full.
Proof. eexists _, _; repeat split; reflexivity. Defined.

Lemma partial_is_checkpoint : is_checkpoint (checkpoint partial) cfg partial.
Proof. eexists _, _; repeat split; reflexivity. Defined.



(** In a world where every copy succeeds, all stored tensors fit. *)
Lemma world_all_fit (weights : gmap string Tensor) :
  all_fit copy_ (initial_params cfg) weights.
Proof. intros k t0 t _ _. by eexists. Defined.

(** The full file misses only ["esm.embed"], which stays as built. *)
Lemma load_model_optional_only_witness :
  (∀ k, k ∈ dom (initial_params cfg) ∖ dom full →
        PyStr.startswith k "esm." = true)
  ∧ ∃ m, outcome (load (ArgPath v0_file)) = inr m
         ∧ esmfold_config m = cfg
         ∧ ∀ k, k ∉ dom full → params m !! k = initial_params cfg !! k.
Proof.
  assert (∀ k, k ∈ dom (initial_params cfg) ∖ dom full →
               PyStr.startswith k "esm." = true) as Hall.
  { apply (bool_decide_unpack
             (set_Forall (λ k, PyStr.startswith k "esm." = true)
                         (dom (initial_params cfg) ∖ dom full))).
    vm_compute. exact I. }
  split; [exact Hall |].
  apply (load_model_optional_only unpickle initial_params copy_ iter
           iter_elements (ArgPath v0_file) (checkpoint full) cfg full);
    [reflexivity | exact full_is_checkpoint | exact Hall
    | exact (world_all_fit full)].
Defined.

(** C3, as stated, fails.  The file lacks only ["esm.embed"], but its
    tensor under ["trunk.esm.weight"] has size 5 where the parameter has
    size 2: the load raises instead of returning the model. *)
Lemma optional_only_checkpoint_raises :
  is_checkpoint (Sized.checkpoint Sized.trunk_misfit) Sized.cfg
    Sized.trunk_misfit
  ∧ dom (Sized.initial_params Sized.cfg) ∖ dom Sized.trunk_misfit
    = {[ "esm.embed" ]}
  ∧ PyStr.startswith "esm.embed" "esm." = true
  ∧ outcome (Sized.load (ArgPath Sized.trunk_misfit_file))
    = inl (RuntimeError "Error(s) in loading state_dict for ESMFold").
Proof.
  split; [eexists _, _; repeat split; reflexivity |].
  split; [by vm_compute |]. split; reflexivity.
Qed.

(** The error for the trunk-only file lists ["trunk.esm.weight"]. *)
Lemma load_model_error_names_missing_witness :
  "trunk.esm.weight" ∈ dom (initial_params cfg) ∖ dom partial
  ∧ ∃ ks, outcome (load (ArgPath v0_partial))
          = inl (RuntimeError (missing_message ks))
          ∧ NoDup ks
          ∧ (∀ k, k ∈ dom (initial_params cfg) → k ∉ dom partial →
                  PyStr.startswith k "esm." = false →
                  k ∈ ks ∧ PyStr.contains k (missing_message ks) = true)
          ∧ (∀ k, k ∈ ks →
                  k ∈ dom (initial_params cfg) ∧ (k ∉ dom partial)
                  ∧ PyStr.startswith k "esm." = false).
Proof.
  assert ("trunk.esm.weight" ∈ dom (initial_params cfg) ∖ dom partial)
    as Hk.
  { apply (bool_decide_unpack
             ("trunk.esm.weight" ∈ dom (initial_params cfg) ∖ dom partial)).
    vm_compute. exact I. }
  split; [exact Hk |].
  apply (load_model_error_names_missing unpickle initial_params copy_ iter
           iter_elements (ArgPath v0_partial) (checkpoint partial) cfg partial
           "trunk.esm.weight");
    [reflexivity | exact partial_is_checkpoint | exact Hk | reflexivity].
Defined.

(** The file with every trunk weight loads; the language-model key it
    lacks is optional and the stray key is ignored. *)
Lemma load_model_permissive_witness :
  at_file (py_str (ArgPath v0_file)) = inr (checkpoint full)
  ∧ trace (load (ArgPath v0_file))
    = [EvTorchLoad "/ckpt/esmfold_3B_v0.pt" "cuda:0";
       EvESMFold cfg; EvLoadStateDict false]
  ∧ ∃ m, outcome (load (ArgPath v0_file)) = inr m
         ∧ dom (params m) = dom (initial_params cfg)
         ∧ ∀ k t0, initial_params cfg !! k = Some t0 →
                   match full !! k with
                   | Some t => params m !! k = copy_ t0 t
                   | None => params m !! k = Some t0
                   end.
Proof.
  assert (∀ k, k ∈ dom (initial_params cfg) →
               PyStr.startswith k "esm." = false → k ∈ dom full) as Hreq.
  { apply (bool_decide_unpack
             (set_Forall
                (λ k, PyStr.startswith k "esm." = false → k ∈ dom full)
                (dom (initial_params cfg)))).
    vm_compute. exact I. }
  pose proof (load_model_permissive unpickle initial_params copy_ iter
                iter_elements (ArgPath v0_file) (checkpoint full) cfg full
                eq_refl full_is_checkpoint Hreq) as (Htrace & Hok & _).
  split; [reflexivity |]. split; [exact Htrace |].
  exact (Hok (world_all_fit full)).
Defined.

(** C5, as stated, fails.  No required key is missing and both trunk
    tensors fit, but the optional ["esm.embed"] is present with size 1
    where the parameter has size 8: no model is returned. *)
Lemma permissive_load_raises :
  is_checkpoint (Sized.checkpoint Sized.optional_misfit) Sized.cfg
    Sized.optional_misfit
  ∧ dom (Sized.initial_params Sized.cfg) ∖ dom Sized.optional_misfit = ∅
  ∧ "ema.decay" ∈ dom Sized.optional_misfit
                  ∖ dom (Sized.initial_params Sized.cfg)
  ∧ outcome (Sized.load (ArgPath Sized.optional_misfit_file))
    = inl (RuntimeError "Error(s) in loading state_dict for ESMFold").
Proof.
  split; [eexists _, _; repeat split; reflexivity |].
  split; [by vm_compute |]. split; [| reflexivity].
  apply (bool_decide_unpack
           ("ema.decay" ∈ dom Sized.optional_misfit
                          ∖ dom (Sized.initial_params Sized.cfg))).
  vm_compute. exact I.
Qed.

(** ["trunk.esm.weight"] has ["esm."] inside but not in front: it is
    listed. *)
Lemma optional_prefix_at_start_only_witness :
  PyStr.contains "esm." "trunk.esm.weight" = true
  ∧ "trunk.esm.weight" ∈ dom (initial_params cfg) ∖ dom partial
  ∧ ((¬ ∃ rest, "trunk.esm.weight" = "esm." +:+ rest) →
     ∃ ks, outcome (load (ArgPath v0_partial))
           = inl (RuntimeError (missing_message ks))
           ∧ "trunk.esm.weight" ∈ ks).
Proof.
  assert ("trunk.esm.weight" ∈ dom (initial_params cfg) ∖ dom partial)
    as Hk.
  { apply (bool_decide_unpack
             ("trunk.esm.weight" ∈ dom (initial_params cfg) ∖ dom partial)).
    vm_compute. exact I. }
  split; [reflexivity |]. split; [exact Hk |].
  apply (optional_prefix_at_start_only unpickle initial_params copy_ iter
           iter_elements (ArgPath v0_partial) (checkpoint partial) cfg partial
           "trunk.esm.weight");
    [reflexivity | exact partial_is_checkpoint | exact Hk].
Defined.

(** The failed load of the trunk-only file never reached
    [load_state_dict]. *)
Lemma missing_keys_error_before_loading_witness :
  outcome (load (ArgPath v0_partial))
  = inl (RuntimeError (missing_message ["trunk.esm.weight"]))
  ∧ ∀ strict, EvLoadStateDict strict ∉ trace (load (ArgPath v0_partial)).
Proof.
  split; [reflexivity |].
  apply (missing_keys_error_before_loading unpickle initial_params copy_ iter
           (ArgPath v0_partial) ["trunk.esm.weight"]).
  reflexivity.
Defined.

(** A dictionary with weights but no ["cfg"]. *)
Lemma load_model_lookup_error_witness :
  load (ArgPath v0_no_cfg)
  = (inl (KeyError "cfg"),
     [EvTorchLoad "/ckpt/esmfold_3B_v0.nocfg" "cuda:0"])
  ∧ (∀ msg, outcome (load (ArgPath v0_no_cfg)) ≠ inl (RuntimeError msg))
  ∧ (∀ c, EvESMFold c ∉ trace (load (ArgPath v0_no_cfg))).
Proof.
  apply (load_model_lookup_error unpickle initial_params copy_ iter
           (ArgPath v0_no_cfg)
           {[ "model" := PyDict (PyTensor <$> full) ]} "cfg");
    [reflexivity | left; split; reflexivity].
Defined.

(** A file whose own name carries the identifier is matched through the
    whole path. *)
Lemma selectors_match_whole_path_witness :
  PyStr.contains "esmfold_3B_v0" (name v0_file) = true
  ∧ PyStr.contains "esmfold_3B_v0" (as_posix v0_file) = true.
Proof.
  split; [reflexivity |].
  apply (selectors_match_whole_path unpickle initial_params copy_ iter v0_file).
  reflexivity.
Defined.

(** C2, as stated, fails.  The final component [weights.pt] does not
    contain the identifier, yet the selector loads and returns a model,
    because a directory on the way is called [esmfold_3B_v0]; a second
    path with the same final component gets [None]. *)
Lemma selector_ignores_final_component :
  PyStr.contains "esmfold_3B_v0" (name v0_in_dir) = false
  ∧ (∃ m, v0 (ArgPath v0_in_dir)
          = (inr (Some m),
             [EvTorchLoad "/ckpt/esmfold_3B_v0/weights.pt" "cuda:0";
              EvESMFold cfg; EvLoadStateDict false]))
  ∧ outcome (v0 (ArgPath v0_in_dir)) ≠ inr None
  ∧ name elsewhere = name v0_in_dir
  ∧ v0 (ArgPath elsewhere) = (inr None, [])
  ∧ PyStr.contains "esmfold_3B_v1" (name v1_in_dir) = false
  ∧ outcome (v1 (ArgPath v1_in_dir)) ≠ inr None.
Proof.
  split; [reflexivity |]. split; [by eexists |].
  split; [by vm_compute |]. split; [reflexivity |].
  split; [reflexivity |]. split; [reflexivity |]. by vm_compute.
Qed.

(** *** The further properties in the two file systems *)

(** The model loaded from the full file took both trunk weights from it. *)
Lemma returned_model_has_essential_weights_witness :
  ∃ m, outcome (load (ArgPath v0_file)) = inr m
       ∧ ∃ d c sd,
           at_file (py_str (ArgPath v0_file)) = inr (PyDict d)
           ∧ d !! "cfg" = Some (PyDict c)
           ∧ c !! "model" = Some (esmfold_config m)
           ∧ d !! "model" = Some (PyDict sd)
           ∧ dom (params m) = dom (initial_params (esmfold_config m))
           ∧ ∀ k, k ∈ dom (params m) → PyStr.startswith k "esm." = false →
                  ∃ t0 t t',
                    initial_params (esmfold_config m) !! k = Some t0
                    ∧ sd !! k = Some (PyTensor t)
                    ∧ copy_ t0 t = Some t'
                    ∧ params m !! k = Some t'.
Proof.
  eexists. split; [reflexivity |].
  apply (returned_model_has_essential_weights unpickle initial_params copy_
           iter iter_elements (ArgPath v0_file)).
  reflexivity.
Defined.

Lemma annotated_is_checkpoint :
  is_checkpoint (checkpoint Shelf.annotated) cfg Shelf.annotated.
Proof. eexists _, _; repeat split; reflexivity. Defined.

Lemma bare_is_checkpoint : is_checkpoint (checkpoint Shelf.bare) cfg Shelf.bare.
Proof. eexists _, _; repeat split; reflexivity. Defined.

(** The optimizer entry and the unused language-model entry of the second
    file change nothing. *)
Lemma undeclared_entries_irrelevant_witness :
  (∀ k, k ∈ dom (initial_params cfg) → full !! k = Shelf.annotated !! k)
  ∧ (outcome (Shelf.load (ArgPath Shelf.in_a))
     = outcome (Shelf.load_rev (ArgPath Shelf.in_b))
     ∨ ∃ ks ks',
         ks ≡ₚ ks'
         ∧ outcome (Shelf.load (ArgPath Shelf.in_a))
           = inl (RuntimeError (missing_message ks))
         ∧ outcome (Shelf.load_rev (ArgPath Shelf.in_b))
           = inl (RuntimeError (missing_message ks'))).
Proof.
  assert (∀ k, k ∈ dom (initial_params cfg) →
               full !! k = Shelf.annotated !! k) as Hagree.
  { apply (bool_decide_unpack
             (set_Forall (λ k, full !! k = Shelf.annotated !! k)
                         (dom (initial_params cfg)))).
    vm_compute. exact I. }
  split; [exact Hagree |].
  apply (undeclared_entries_irrelevant Shelf.unpickle initial_params copy_
           iter iter_elements Shelf.iter_rev
           (ArgPath Shelf.in_a) (ArgPath Shelf.in_b)
           (checkpoint full) (checkpoint Shelf.annotated) cfg
           full Shelf.annotated);
    [intros s; apply reverse_Permutation
    | reflexivity | exact full_is_checkpoint
    | reflexivity | exact annotated_is_checkpoint | exact Hagree].
Defined.

(** With no weight in the file both trunk keys are missing; enumerating
    them backwards only swaps them in the message. *)
Lemma enumeration_order_irrelevant_witness :
  Shelf.load (ArgPath Shelf.in_d) = Shelf.load_rev (ArgPath Shelf.in_d)
  ∨ ∃ ks ks',
      ks ≡ₚ ks'
      ∧ outcome (Shelf.load (ArgPath Shelf.in_d))
        = inl (RuntimeError (missing_message ks))
      ∧ outcome (Shelf.load_rev (ArgPath Shelf.in_d))
        = inl (RuntimeError (missing_message ks'))
      ∧ trace (Shelf.load (ArgPath Shelf.in_d))
        = trace (Shelf.load_rev (ArgPath Shelf.in_d)).
Proof.
  apply (enumeration_order_irrelevant Shelf.unpickle initial_params copy_ iter
           iter_elements Shelf.iter_rev (ArgPath Shelf.in_d)).
  intros s. apply reverse_Permutation.
Defined.

(** The only essential key the trunk-only file lacks. *)
Lemma single_missing_key_message_witness :
  filter (λ x, PyStr.startswith x "esm." = false)
         (dom (initial_params cfg) ∖ dom partial) = {[ "trunk.esm.weight" ]}
  ∧ outcome (load (ArgPath v0_partial))
    = inl (RuntimeError "Keys 'trunk.esm.weight' are missing.").
Proof.
  assert (filter (λ x, PyStr.startswith x "esm." = false)
                 (dom (initial_params cfg) ∖ dom partial)
          = {[ "trunk.esm.weight" ]}) as Hone by (vm_compute; reflexivity).
  split; [exact Hone |].
  apply (single_missing_key_message unpickle initial_params copy_ iter
           iter_elements (ArgPath v0_partial) (checkpoint partial) cfg
           partial "trunk.esm.weight");
    [reflexivity | exact partial_is_checkpoint | exact Hone].
Defined.

(** The failed load of the trunk-only file had built the model. *)
Lemma constructed_from_file_configuration_witness :
  EvESMFold cfg ∈ trace (load (ArgPath v0_partial))
  ∧ ∃ d c model_state,
      at_file (py_str (ArgPath v0_partial)) = inr (PyDict d)
      ∧ d !! "cfg" = Some (PyDict c)
      ∧ c !! "model" = Some cfg
      ∧ d !! "model" = Some model_state.
Proof.
  assert (EvESMFold cfg ∈ trace (load (ArgPath v0_partial))) as Hin
    by (vm_compute; right; left).
  split; [exact Hin |].
  exact (constructed_from_file_configuration unpickle initial_params copy_ iter
           (ArgPath v0_partial) cfg Hin).
Defined.

(** The successful load of the full file copied weights non-strictly. *)
Lemma weights_copied_only_after_check_witness :
  EvLoadStateDict false ∈ trace (load (ArgPath v0_file))
  ∧ ∃ d c sd,
      at_file (py_str (ArgPath v0_file)) = inr (PyDict d)
      ∧ d !! "model" = Some (PyDict sd)
      ∧ trace (load (ArgPath v0_file))
        = [EvTorchLoad (py_str (ArgPath v0_file)) "cuda:0";
           EvESMFold c; EvLoadStateDict false]
      ∧ ∀ k, k ∈ dom (initial_params c) →
             PyStr.startswith k "esm." = false → k ∈ dom sd.
Proof.
  assert (EvLoadStateDict false ∈ trace (load (ArgPath v0_file))) as Hin
    by (vm_compute; right; right; left).
  split; [exact Hin |].
  exact (proj2 (weights_copied_only_after_check unpickle initial_params copy_ iter
                  iter_elements (ArgPath v0_file) false Hin)).
Defined.

(** The dictionary without ["cfg"] fails on ["cfg"] and on no other key. *)
Lemma key_error_iff_lacks_field_witness :
  (outcome (load (ArgPath v0_no_cfg)) = inl (KeyError "cfg")
   ↔ lacks_field Shelf.weights_only "cfg")
  ∧ (outcome (load (ArgPath v0_no_cfg)) = inl (KeyError "model")
     ↔ lacks_field Shelf.weights_only "model").
Proof.
  split;
    apply (key_error_iff_lacks_field unpickle initial_params copy_ iter
             (ArgPath v0_no_cfg));
    reflexivity.
Defined.

(** A file whose ["model"] entry is one tensor. *)
Lemma model_entry_not_a_dictionary_witness :
  (∃ msg, outcome (Shelf.load (ArgPath Shelf.in_c))
          = inl (AttributeError msg))
  ∧ trace (Shelf.load (ArgPath Shelf.in_c))
    = [EvTorchLoad "/c/esmfold_3B_v0.pt" "cuda:0"; EvESMFold cfg].
Proof.
  apply (model_entry_not_a_dictionary Shelf.unpickle initial_params copy_ iter
           (ArgPath Shelf.in_c)
           {[ "cfg" := PyDict {[ "model" := cfg ]}; "model" := PyTensor 5 ]}
           {[ "model" := cfg ]} cfg (PyTensor 5));
    [reflexivity | reflexivity | reflexivity | reflexivity
    | intros sd; discriminate].
Defined.

(** A matching name without a file behind it. *)
Lemma read_failure_propagates_witness :
  PyStr.contains "esmfold_3B_v0" (as_posix Shelf.absent) = true
  ∧ Shelf.v0 (ArgPath Shelf.absent)
    = (inl (FileNotFoundError "/e/esmfold_3B_v0.pt"),
       [EvTorchLoad "/e/esmfold_3B_v0.pt" "cuda:0"]).
Proof.
  split; [reflexivity |].
  apply (read_failure_propagates Shelf.unpickle initial_params copy_ iter
           Shelf.absent (FileNotFoundError "/e/esmfold_3B_v0.pt"));
    reflexivity.
Defined.

(** A path that carries both identifiers. *)
Lemma selectors_agree_when_both_match_witness :
  PyStr.contains "esmfold_3B_v0" (as_posix Shelf.both) = true
  ∧ PyStr.contains "esmfold_3B_v1" (as_posix Shelf.both) = true
  ∧ Shelf.v0 (ArgPath Shelf.both) = Shelf.v1 (ArgPath Shelf.both).
Proof.
  split; [reflexivity |]. split; [reflexivity |].
  apply (selectors_agree_when_both_match Shelf.unpickle initial_params copy_ iter
           Shelf.both);
    reflexivity.
Defined.

End WorldFacts.
